(** * NLP endpoint using haystack and FastAPI: a model of [app.py]

    [app.py] is an HTTP layer of six endpoints over a haystack document
    store and an extractive question-answering pipeline.  The endpoints are
    embedded here as computations in a state monad over a [World]: the
    contents of the document store, the counter of Python objects created so
    far, and the sequence of calls made into haystack.  What haystack itself
    computes (identifiers, storage, ranking, reading) is not part of
    [app.py]; it enters through the interface [Haystack]. *)

From Stdlib Require Import String List Lia.
From stdpp Require Import base option list strings gmap.

Open Scope string_scope.

(** ** Values of the haystack schema *)

(** A Python [dict] from strings to optional strings ([None] is Python's
    [None]); the only [meta] the endpoints build is [{"name": name}]. *)
Definition Meta := list (string * option string).


(** [haystack.schema.Document], restricted to the attributes the endpoints
    set or read. *)
Record HaystackDocument := {
  doc_id : string;
  doc_content : string;
  doc_meta : Meta
}.

(** The [params] argument of [Pipeline.run]: per node name, its settings. *)
Definition Params := list (string * list (string * nat)).

Definition node_param (params : Params) (node key : string) : option nat :=
  match List.find (fun kv => String.eqb (fst kv) node) params with
  | Some (_, settings) =>
      snd <$> List.find (fun kv => String.eqb (fst kv) key) settings
  | None => None
  end.

(** ** The haystack library, as the endpoints use it

    [Store] is the contents of the OpenSearch index behind the process-wide
    [document_store] handle.  A result of type [option (list _)] is a Python
    value that is either [None] or a list, since the endpoints test results
    with [is None]. *)
Class Haystack (Store Answer AnswerDict : Type) := {
  (** the identifier [HaystackDocument(content=..., meta=...)] gives the new
      object *)
  new_document_id : string -> Meta -> string;
  get_document_by_id : Store -> string -> option HaystackDocument;
  write_documents : list HaystackDocument -> Store -> Store;
  get_all_documents : Store -> option (list HaystackDocument);
  query : Store -> string -> option (list HaystackDocument);
  (** [BM25Retriever(document_store).retrieve(query, top_k)] *)
  retrieve : Store -> string -> option nat -> list HaystackDocument;
  (** [FARMReader(model, use_gpu).predict(query, documents, top_k)] *)
  predict : string -> bool -> string -> list HaystackDocument ->
            option nat -> list Answer;
  (** [Answer.to_dict()] *)
  to_dict : Answer -> AnswerDict
}.

(** Objects created by constructors are told apart by the number they got
    from the object counter. *)
Record BM25Retriever := { retriever_object : nat }.

Record FARMReader := {
  reader_object : nat;
  model_name_or_path : string;
  use_gpu : bool
}.

Record ExtractiveQAPipeline := {
  pipeline_object : nat;
  pipeline_reader : FARMReader;
  pipeline_retriever : BM25Retriever
}.

(** Calls into haystack, in the order they are made. *)
Inductive Event :=
| NewOpenSearchDocumentStore (obj : nat) (host port username password : option string)
                             (verify_certs : bool)
| CallGetDocumentById (document_id : string)
| CallWriteDocuments (documents : list HaystackDocument)
| CallGetAllDocuments
| CallQuery (q : string)
| NewBM25Retriever (obj : nat)
| NewFARMReader (obj : nat) (model : string) (gpu : bool)
| NewExtractiveQAPipeline (obj reader retriever : nat)
| CallPipelineRun (obj : nat) (q : string) (params : Params)
| CallRetrieve (obj : nat) (q : string) (top_k : option nat)
| CallPredict (obj : nat) (q : string) (documents : list HaystackDocument)
              (top_k : option nat).

(** ** Request models of [app.py] *)

(** [class Document(BaseModel)]: [name: Optional[str] = None], [content: str]. *)
Record Document := {
  name : option string;
  content : string
}.

(** [class Query(BaseModel)]: [question: str]. *)
Record Query := {
  question : string
}.

(** FastAPI's [Response] parameter; [status_code] stays [None] until an
    endpoint assigns it. *)
Record Response := {
  status_code : option nat
}.

Definition set_status_code (code : nat) (response : Response) : Response :=
  {| status_code := Some code |}.

(** What an endpoint returns to FastAPI. *)
Inductive Body (AnswerDict : Type) :=
| BDict (items : list (string * string))
| BDocument (document : HaystackDocument)
| BDocuments (documents : list HaystackDocument)
| BNone
| BAnswers (answers : list AnswerDict).

Arguments BDict {AnswerDict} items.
Arguments BDocument {AnswerDict} document.
Arguments BDocuments {AnswerDict} documents.
Arguments BNone {AnswerDict}.
Arguments BAnswers {AnswerDict} answers.

(** A Python value that is a document or [None], and one that is a list of
    documents or [None], returned as they are. *)
Definition document_body {AnswerDict} (document : option HaystackDocument)
  : Body AnswerDict :=
  match document with
  | Some d => BDocument d
  | None => BNone
  end.

Definition documents_body {AnswerDict} (documents : option (list HaystackDocument))
  : Body AnswerDict :=
  match documents with
  | Some ds => BDocuments ds
  | None => BNone
  end.

(** Python's [x is None]. *)
Definition is_None {A} (x : option A) : bool :=
  match x with
  | None => true
  | Some _ => false
  end.

(** The HTTP response the client gets. *)
Record HttpResponse (AnswerDict : Type) := {
  http_status : nat;
  http_body : Body AnswerDict
}.

Arguments Build_HttpResponse {AnswerDict} http_status http_body.
Arguments http_status {AnswerDict} h.
Arguments http_body {AnswerDict} h.

(** The six operations, as requests after FastAPI has validated them. *)
Inductive Request :=
| GetHealth
| GetDocument (document_id : string)
| PostDocument (document : Document)
| GetAllDocuments
| SearchDocuments (q : string)
| AskDocument (q : Query).

Section App.

Context {Store Answer AnswerDict : Type} `{!Haystack Store Answer AnswerDict}.

(** ** The world and the monad of endpoint computations *)

Record World := {
  document_store : Store;
  next_object : nat;
  calls : list Event
}.

Definition M (A : Type) : Type := World -> A * World.

Definition ret {A} (a : A) : M A := fun w => (a, w).

Definition bind {A B} (m : M A) (k : A -> M B) : M B :=
  fun w => let (a, w') := m w in k a w'.

Notation "'let*' x ':=' c 'in' k" := (bind c (fun x => k))
  (at level 10, x pattern, c at level 100, k at level 200).

Definition run {A} (m : M A) (w : World) : A := fst (m w).
Definition exec {A} (m : M A) (w : World) : World := snd (m w).

Definition log (e : Event) : M unit :=
  fun w => (tt, {| document_store := document_store w;
                   next_object := next_object w;
                   calls := calls w ++ [e] |}).

Definition new_object : M nat :=
  fun w => (next_object w,
            {| document_store := document_store w;
               next_object := S (next_object w);
               calls := calls w |}).

Definition read_store {A} (f : Store -> A) : M A :=
  fun w => (f (document_store w), w).

Definition update_store (f : Store -> Store) : M unit :=
  fun w => (tt, {| document_store := f (document_store w);
                   next_object := next_object w;
                   calls := calls w |}).

(** ** haystack calls, each recorded in [calls] *)

Definition HaystackDocument_new (content : string) (meta : Meta) : HaystackDocument :=
  {| doc_id := new_document_id content meta;
     doc_content := content;
     doc_meta := meta |}.

Definition store_get_document_by_id (document_id : string)
  : M (option HaystackDocument) :=
  let* _ := log (CallGetDocumentById document_id) in
  read_store (fun s => get_document_by_id s document_id).

Definition store_write_documents (documents : list HaystackDocument) : M unit :=
  let* _ := log (CallWriteDocuments documents) in
  update_store (write_documents documents).

Definition store_get_all_documents : M (option (list HaystackDocument)) :=
  let* _ := log CallGetAllDocuments in
  read_store get_all_documents.

Definition store_query (q : string) : M (option (list HaystackDocument)) :=
  let* _ := log (CallQuery q) in
  read_store (fun s => query s q).

(** [BM25Retriever(document_store)] *)
Definition BM25Retriever_new : M BM25Retriever :=
  let* obj := new_object in
  let* _ := log (NewBM25Retriever obj) in
  ret {| retriever_object := obj |}.

(** [FARMReader(model, use_gpu=...)] *)
Definition FARMReader_new (model : string) (gpu : bool) : M FARMReader :=
  let* obj := new_object in
  let* _ := log (NewFARMReader obj model gpu) in
  ret {| reader_object := obj; model_name_or_path := model; use_gpu := gpu |}.

(** [ExtractiveQAPipeline(reader, retriever)] *)
Definition ExtractiveQAPipeline_new (reader : FARMReader) (retriever : BM25Retriever)
  : M ExtractiveQAPipeline :=
  let* obj := new_object in
  let* _ := log (NewExtractiveQAPipeline obj (reader_object reader)
                                         (retriever_object retriever)) in
  ret {| pipeline_object := obj;
         pipeline_reader := reader;
         pipeline_retriever := retriever |}.

(** [pipeline.run(query=..., params=...)["answers"]]: the retriever node
    runs on the query, then the reader node on the query and the retrieved
    documents, each with the [top_k] that [params] holds under its name. *)
Definition pipeline_run (pipeline : ExtractiveQAPipeline) (q : string) (params : Params)
  : M (list Answer) :=
  let retriever := pipeline_retriever pipeline in
  let reader := pipeline_reader pipeline in
  let* _ := log (CallPipelineRun (pipeline_object pipeline) q params) in
  let retriever_top_k := node_param params "Retriever" "top_k" in
  let* _ := log (CallRetrieve (retriever_object retriever) q retriever_top_k) in
  let* documents := read_store (fun s => retrieve s q retriever_top_k) in
  let reader_top_k := node_param params "Reader" "top_k" in
  let* _ := log (CallPredict (reader_object reader) q documents reader_top_k) in
  ret (predict (model_name_or_path reader) (use_gpu reader) q documents reader_top_k).

(** ** The endpoints of [app.py] *)

Abbreviation Endpoint := (M (Body AnswerDict * Response)).

(** [@app.get("/health")]; [health] takes no [Response]. *)
Definition health : M (Body AnswerDict) :=
  ret (BDict [("status", "ok")]).

(** [@app.get("/documents/{document_id}", status_code=200)] *)
Definition get_document (document_id : string) (response : Response) : Endpoint :=
  let* document := store_get_document_by_id document_id in
  if is_None document
  then ret (BDict [("error", "Document not found")], set_status_code 404 response)
  else ret (document_body document, response).

(** [@app.post("/documents/", status_code=201)] *)
Definition save_document (document : Document) (response : Response) : Endpoint :=
  let new_doc := HaystackDocument_new (content document) [("name", name document)] in
  let* _ := store_write_documents [new_doc] in
  ret (BDict [("id", doc_id new_doc)], response).

(** [@app.get("/documents/", status_code=200)] *)
Definition get_all_document (response : Response) : Endpoint :=
  let* documents := store_get_all_documents in
  if is_None documents
  then ret (BDict [("error", "Documents not found")], set_status_code 404 response)
  else ret (documents_body documents, response).

(** [@app.get("/documents/search/{query}", status_code=200)] *)
Definition search_document (q : string) (response : Response) : Endpoint :=
  let* documents := store_query q in
  ret (documents_body documents, response).

(** [@app.post("/documents/ask", status_code=200)] *)
Definition ask_document (q : Query) (response : Response) : Endpoint :=
  let model := "deepset/roberta-base-squad2" in
  let* retriever := BM25Retriever_new in
  let* reader := FARMReader_new model true in
  let* pipeline := ExtractiveQAPipeline_new reader retriever in
  let* result := pipeline_run pipeline (question q)
                   [("Retriever", [("top_k", 10)]); ("Reader", [("top_k", 1)])] in
  let answers := List.map to_dict result in
  ret (BAnswers answers, response).

(** ** FastAPI: routing and status codes *)

(** A route runs its endpoint with a fresh [Response]; the status code the
    endpoint assigned, if any, replaces the one of the decorator. *)
Definition route (decorator_status : nat) (endpoint : Response -> Endpoint)
  : M (HttpResponse AnswerDict) :=
  let* returned := endpoint {| status_code := None |} in
  let (body, response) := returned in
  ret {| http_status := default decorator_status (status_code response);
         http_body := body |}.

(** The routes of [app]; a decorator without [status_code] answers 200. *)
Definition app (request : Request) : M (HttpResponse AnswerDict) :=
  match request with
  | GetHealth => route 200 (fun response => let* body := health in ret (body, response))
  | GetDocument document_id => route 200 (get_document document_id)
  | PostDocument document => route 201 (save_document document)
  | GetAllDocuments => route 200 get_all_document
  | SearchDocuments q => route 200 (search_document q)
  | AskDocument q => route 200 (ask_document q)
  end.

(** Module initialisation: the environment is read and the one
    [document_store] handle is created over the index as it stands. *)
Definition startup (getenv : string -> option string) (index : Store) : World :=
  {| document_store := index;
     next_object := 1;
     calls := [NewOpenSearchDocumentStore 0
                 (getenv "OPENSEARCH_SERVER") (getenv "OPENSEARCH_SERVER_PORT")
                 (getenv "OPENSEARCH_USER") (getenv "OPENSEARCH_PASSWORD") true] |}.

(** Serving a sequence of requests, one after the other. *)
Fixpoint serve (requests : list Request) (w : World) : list (HttpResponse AnswerDict) * World :=
  match requests with
  | [] => ([], w)
  | r :: rest =>
      let (resp, w') := app r w in
      let (resps, w'') := serve rest w' in
      (resp :: resps, w'')
  end.

End App.

Arguments World Store : clear implicits.
Arguments M Store A : clear implicits.

(** ** A reference store

    An instance of [Haystack] that computes, following the defaults that
    [app.py] leaves in place: [HaystackDocument(content=..., meta=...)] is
    called without [id] and without [id_hash_keys], so haystack derives the
    identifier from the content alone, and [OpenSearchDocumentStore(...)] is
    created without [duplicate_documents], so a written document replaces
    the record stored under its identifier.  The index is a finite map from
    identifiers to documents; in place of the hash of the content the
    identifier is the content itself; searching and reading are plain
    substring matching. *)
Module MemStore.

Abbreviation Store := (gmap string HaystackDocument).

Record Answer := {
  answer : string;
  document_id : string
}.

Abbreviation AnswerDict := (list (string * string)).

Definition mentions (q : string) (d : HaystackDocument) : bool :=
  match String.index 0 q (doc_content d) with
  | Some _ => true
  | None => false
  end.

Definition all_documents (s : Store) : list HaystackDocument :=
  snd <$> map_to_list s.

Definition index_document (s : Store) (d : HaystackDocument) : Store :=
  <[doc_id d := d]> s.

Definition top (top_k : option nat) {A} (l : list A) : list A :=
  firstn (default 10 top_k) l.

#[global] Instance haystack : Haystack Store Answer AnswerDict := {|
  new_document_id content meta := content;
  get_document_by_id s document_id := s !! document_id;
  write_documents documents s := foldl index_document s documents;
  get_all_documents s := Some (all_documents s);
  query s q := Some (List.filter (mentions q) (all_documents s));
  retrieve s q top_k := top top_k (List.filter (mentions q) (all_documents s));
  predict model gpu q documents top_k :=
    top top_k ((fun d => {| answer := q; document_id := doc_id d |}) <$> documents);
  to_dict a := [("answer", answer a); ("document_id", document_id a)]
|}.

Definition getenv (key : string) : option string :=
  if String.eqb key "OPENSEARCH_SERVER" then Some "localhost"
  else if String.eqb key "OPENSEARCH_SERVER_PORT" then Some "9200"
  else None.

(** The process just started over an empty index. *)
Definition fresh : World Store := startup getenv ∅.

Definition paris : Document :=
  {| name := Some "doc1"; content := "The capital of France is Paris." |}.

Definition paris_renamed : Document :=
  {| name := Some "doc2"; content := "The capital of France is Paris." |}.

Definition unnamed : Document :=
  {| name := None; content := "Lyon is on the Rhone." |}.

(** The process after it has saved [paris]. *)
Definition with_paris : World Store := exec (app (PostDocument paris)) fresh.

End MemStore.

(** ** What the properties below are stated with *)


(** The objects an event creates or is a call on. *)
Definition event_objects (e : Event) : list nat :=
  match e with
  | NewOpenSearchDocumentStore obj _ _ _ _ _ => [obj]
  | NewBM25Retriever obj => [obj]
  | NewFARMReader obj _ _ => [obj]
  | NewExtractiveQAPipeline obj reader retriever => [obj; reader; retriever]
  | CallPipelineRun obj _ _ => [obj]
  | CallRetrieve obj _ _ => [obj]
  | CallPredict obj _ _ _ => [obj]
  | CallGetDocumentById _ | CallWriteDocuments _ | CallGetAllDocuments
  | CallQuery _ => []
  end.

(** Creation of a retriever or of a reader. *)
Definition is_node_creation (e : Event) : bool :=
  match e with
  | NewBM25Retriever _ | NewFARMReader _ _ _ => true
  | _ => false
  end.

Definition is_save (r : Request) : bool :=
  match r with
  | PostDocument _ => true
  | _ => false
  end.

Definition is_write (e : Event) : bool :=
  match e with
  | CallWriteDocuments _ => true
  | _ => false
  end.

Section Contracts.

Context {Store Answer AnswerDict : Type} `{!Haystack Store Answer AnswerDict}.

(** The document the save endpoint builds from a request. *)
Definition new_doc (document : Document) : HaystackDocument :=
  HaystackDocument_new (content document) [("name", name document)].

(** A document just written is the one found under its identifier. *)
Definition write_then_get : Prop :=
  forall (d : HaystackDocument) (s : Store),
    get_document_by_id (write_documents [d] s) (doc_id d) = Some d.

(** Writing a document leaves the records under other identifiers alone. *)
Definition write_frames : Prop :=
  forall (d : HaystackDocument) (s : Store) (i : string),
    i <> doc_id d ->
    get_document_by_id (write_documents [d] s) i = get_document_by_id s i.

(** A reader asked for [top_k] answers returns at most that many. *)
Definition reader_honours_top_k : Prop :=
  forall model gpu q documents (k : nat),
    length (predict model gpu q documents (Some k)) <= k.

(** Every object the recorded calls mention was created before now. *)
Definition objects_numbered (w : World Store) : Prop :=
  Forall (fun e => Forall (fun o => o < next_object w) (event_objects e)) (calls w).

(** The calls an ask request adds to the record, [o] being the first free
    object number and [s] the store. *)
Definition events_of_ask (o : nat) (s : Store) (q : string) : list Event :=
  let params := [("Retriever", [("top_k", 10)]); ("Reader", [("top_k", 1)])] in
  [NewBM25Retriever o;
   NewFARMReader (o + 1) "deepset/roberta-base-squad2" true;
   NewExtractiveQAPipeline (o + 2) (o + 1) o;
   CallPipelineRun (o + 2) q params;
   CallRetrieve o q (Some 10);
   CallPredict (o + 1) q (retrieve s q (Some 10)) (Some 1)].

(** The world with further calls recorded. *)
Definition recorded (events : list Event) (w : World Store) : World Store :=
  {| document_store := document_store w;
     next_object := next_object w;
     calls := calls w ++ events |}.

(** The calls each request adds to the record. *)
Definition request_events (r : Request) (w : World Store) : list Event :=
  match r with
  | GetHealth => []
  | GetDocument document_id => [CallGetDocumentById document_id]
  | PostDocument document => [CallWriteDocuments [new_doc document]]
  | GetAllDocuments => [CallGetAllDocuments]
  | SearchDocuments keyword => [CallQuery keyword]
  | AskDocument q => events_of_ask (next_object w) (document_store w) (question q)
  end.

(** The documents a sequence of requests submits for saving, in order. *)
Definition saved_documents (requests : list Request) : list Document :=
  flat_map (fun r => match r with PostDocument document => [document] | _ => [] end)
           requests.

Definition is_ask (r : Request) : bool :=
  match r with
  | AskDocument _ => true
  | _ => false
  end.

(** The request is a save whose document gets the identifier [i]. *)
Definition writes_id (i : string) (r : Request) : bool :=
  match r with
  | PostDocument document => String.eqb (doc_id (new_doc document)) i
  | _ => false
  end.

(** The object an event creates, if it is a creation. *)
Definition created_objects (e : Event) : list nat :=
  match e with
  | NewOpenSearchDocumentStore obj _ _ _ _ _ => [obj]
  | NewBM25Retriever obj => [obj]
  | NewFARMReader obj _ _ => [obj]
  | NewExtractiveQAPipeline obj _ _ => [obj]
  | _ => []
  end.

End Contracts.

(** * Properties of the endpoints *)

Section Properties.

Context {Store Answer AnswerDict : Type} `{!Haystack Store Answer AnswerDict}.

Implicit Types (w : World Store) (document : Document) (q : Query).

(** ** What each route computes *)

Lemma app_health_eq w :
  app GetHealth w = ({| http_status := 200; http_body := BDict [("status", "ok")] |}, w).
Proof. reflexivity. Qed.

Lemma app_get_document_eq (document_id : string) w :
  app (GetDocument document_id) w =
    (match get_document_by_id (document_store w) document_id with
     | None => {| http_status := 404;
                  http_body := BDict [("error", "Document not found")] |}
     | Some d => {| http_status := 200; http_body := BDocument d |}
     end,
     recorded [CallGetDocumentById document_id] w).
Proof.
  unfold app, route, get_document, store_get_document_by_id, bind, log, read_store.
  simpl. destruct (get_document_by_id _ _); reflexivity.
Qed.

Lemma app_save_document_eq document w :
  app (PostDocument document) w =
    ({| http_status := 201; http_body := BDict [("id", doc_id (new_doc document))] |},
     {| document_store := write_documents [new_doc document] (document_store w);
        next_object := next_object w;
        calls := calls w ++ [CallWriteDocuments [new_doc document]] |}).
Proof. reflexivity. Qed.

Lemma app_get_all_document_eq w :
  app GetAllDocuments w =
    (match get_all_documents (document_store w) with
     | None => {| http_status := 404;
                  http_body := BDict [("error", "Documents not found")] |}
     | Some ds => {| http_status := 200; http_body := BDocuments ds |}
     end,
     recorded [CallGetAllDocuments] w).
Proof.
  unfold app, route, get_all_document, store_get_all_documents, bind, log, read_store.
  simpl. destruct (get_all_documents _); reflexivity.
Qed.

Lemma app_search_document_eq (keyword : string) w :
  app (SearchDocuments keyword) w =
    ({| http_status := 200;
        http_body := match query (document_store w) keyword with
                     | None => BNone
                     | Some ds => BDocuments ds
                     end |},
     recorded [CallQuery keyword] w).
Proof.
  unfold app, route, search_document, store_query, bind, log, read_store.
  simpl. destruct (query _ _); reflexivity.
Qed.

Lemma app_ask_document_eq q w :
  app (AskDocument q) w =
    ({| http_status := 200;
        http_body :=
          BAnswers (List.map to_dict
            (predict "deepset/roberta-base-squad2" true (question q)
               (retrieve (document_store w) (question q) (Some 10)) (Some 1))) |},
     {| document_store := document_store w;
        next_object := next_object w + 3;
        calls := calls w ++ events_of_ask (next_object w) (document_store w) (question q) |}).
Proof.
  unfold app, route, ask_document, BM25Retriever_new, FARMReader_new,
    ExtractiveQAPipeline_new, pipeline_run, bind, log, new_object, read_store, ret,
    events_of_ask.
  simpl. repeat rewrite <- app_assoc. simpl.
  replace (next_object w + 3) with (S (S (S (next_object w)))) by lia.
  replace (next_object w + 2) with (S (S (next_object w))) by lia.
  replace (next_object w + 1) with (S (next_object w)) by lia.
  reflexivity.
Qed.

(** The store after a request: only the save route writes. *)
Lemma app_document_store (r : Request) w :
  document_store (exec (app r) w) =
    match r with
    | PostDocument document => write_documents [new_doc document] (document_store w)
    | _ => document_store w
    end.
Proof.
  unfold exec. destruct r.
  - rewrite app_health_eq; reflexivity.
  - rewrite app_get_document_eq; reflexivity.
  - rewrite app_save_document_eq; reflexivity.
  - rewrite app_get_all_document_eq; reflexivity.
  - rewrite app_search_document_eq; reflexivity.
  - rewrite app_ask_document_eq; reflexivity.
Qed.

Lemma app_calls (r : Request) w :
  calls (exec (app r) w) = (calls w ++ request_events r w)%list.
Proof.
  unfold exec. destruct r; simpl request_events.
  - rewrite app_health_eq; simpl. symmetry; apply app_nil_r.
  - rewrite app_get_document_eq; reflexivity.
  - rewrite app_save_document_eq; reflexivity.
  - rewrite app_get_all_document_eq; reflexivity.
  - rewrite app_search_document_eq; reflexivity.
  - rewrite app_ask_document_eq; reflexivity.
Qed.

Lemma app_next_object (r : Request) w :
  next_object (exec (app r) w) =
    match r with
    | AskDocument _ => next_object w + 3
    | _ => next_object w
    end.
Proof.
  unfold exec. destruct r.
  - rewrite app_health_eq; reflexivity.
  - rewrite app_get_document_eq; reflexivity.
  - rewrite app_save_document_eq; reflexivity.
  - rewrite app_get_all_document_eq; reflexivity.
  - rewrite app_search_document_eq; reflexivity.
  - rewrite app_ask_document_eq; reflexivity.
Qed.

(** ** Object numbers: an invariant of serving *)

Lemma request_events_numbered (r : Request) w :
  Forall (fun e => Forall (fun o => o < next_object (exec (app r) w)) (event_objects e))
         (request_events r w).
Proof.
  rewrite app_next_object.
  destruct r; simpl; repeat constructor; lia.
Qed.

Lemma app_objects_numbered (r : Request) w :
  objects_numbered w -> objects_numbered (exec (app r) w).
Proof.
  unfold objects_numbered. intros Hw.
  rewrite app_calls. apply Forall_app. split.
  - eapply Forall_impl; [exact Hw |].
    intros e He. eapply Forall_impl; [exact He |].
    intros o Ho. simpl in Ho. rewrite app_next_object. destruct r; lia.
  - apply request_events_numbered.
Qed.

Lemma serve_objects_numbered (requests : list Request) :
  forall w, objects_numbered w -> objects_numbered (snd (serve requests w)).
Proof.
  induction requests as [| r rest IH]; intros w Hw; simpl.
  - exact Hw.
  - pose proof (app_objects_numbered r w Hw) as Hstep.
    unfold exec in Hstep.
    destruct (app r w) as [resp w1]. simpl in Hstep.
    specialize (IH w1 Hstep).
    destruct (serve rest w1) as [resps w2]. exact IH.
Qed.

Lemma startup_objects_numbered getenv (index : Store) :
  objects_numbered (startup getenv index).
Proof. unfold objects_numbered; simpl. repeat constructor. Qed.

Lemma numbered_not_mentioned w (o : nat) :
  objects_numbered w -> next_object w <= o ->
  Forall (fun e => ~ In o (event_objects e)) (calls w).
Proof.
  intros Hw Ho. eapply Forall_impl; [exact Hw |].
  intros e He Hin. rewrite Forall_forall in He.
  apply list_elem_of_In in Hin. specialize (He o Hin). simpl in He. lia.
Qed.

Lemma serve_reads_keep_store (requests : list Request) :
  forall w, Forall (fun r => is_save r = false) requests ->
            document_store (snd (serve requests w)) = document_store w.
Proof.
  induction requests as [| r rest IH]; intros w Hreads; simpl.
  - reflexivity.
  - inversion Hreads as [| r' rest' Hr Hrest]; subst.
    pose proof (app_document_store r w) as Hstep. unfold exec in Hstep.
    destruct (app r w) as [resp w1]. simpl in Hstep.
    specialize (IH w1 Hrest).
    destruct (serve rest w1) as [resps w2]. simpl in IH |- *.
    rewrite IH, Hstep. destruct r; try reflexivity. discriminate Hr.
Qed.

(** ** The endpoints, one by one *)

(** C5: the health check answers 200 with the body [{"status": "ok"}] in
    every world, whatever the store holds and whatever the environment
    was at startup, and it leaves the world as it found it. *)
Theorem health_always_ok w :
  run (app GetHealth) w = {| http_status := 200; http_body := BDict [("status", "ok")] |}
  /\ exec (app GetHealth) w = w.
Proof. split; reflexivity. Qed.

(** C3: get-by-id answers 404 with the body
    [{"error": "Document not found"}] exactly when the store has no record
    for the identifier, and 200 with the stored document otherwise. *)
Theorem get_document_found_or_404 (document_id : string) w :
  let response := run (app (GetDocument document_id)) w in
  response =
    match get_document_by_id (document_store w) document_id with
    | None => {| http_status := 404;
                 http_body := BDict [("error", "Document not found")] |}
    | Some d => {| http_status := 200; http_body := BDocument d |}
    end
  /\ (response = {| http_status := 404;
                    http_body := BDict [("error", "Document not found")] |}
      <-> get_document_by_id (document_store w) document_id = None).
Proof.
  unfold run. rewrite app_get_document_eq. simpl.
  destruct (get_document_by_id (document_store w) document_id) as [d |].
  - split; [reflexivity |]. split; discriminate.
  - split; [reflexivity |]. split; reflexivity.
Qed.

(** C2, as the code has it: list-all answers 404 with the body
    [{"error": "Documents not found"}] exactly when the store's result is
    [None]; any list, the empty one included, is returned with 200. *)
Theorem get_all_document_404_only_on_none w :
  let response := run (app GetAllDocuments) w in
  response =
    match get_all_documents (document_store w) with
    | None => {| http_status := 404;
                 http_body := BDict [("error", "Documents not found")] |}
    | Some ds => {| http_status := 200; http_body := BDocuments ds |}
    end
  /\ (response = {| http_status := 404;
                    http_body := BDict [("error", "Documents not found")] |}
      <-> get_all_documents (document_store w) = None).
Proof.
  unfold run. rewrite app_get_all_document_eq. simpl.
  destruct (get_all_documents (document_store w)) as [ds |].
  - split; [reflexivity |]. split; discriminate.
  - split; [reflexivity |]. split; reflexivity.
Qed.

(** C10: search answers 200 with the result of the store's query as it
    is, for every keyword and with no test on the result: a list is
    returned as that list, and [None] as [None], not as a list and not as a
    404. *)
Theorem search_document_passes_result_through (keyword : string) w :
  let response := run (app (SearchDocuments keyword)) w in
  http_status response = 200
  /\ http_body response = documents_body (query (document_store w) keyword)
  /\ http_body response =
       match query (document_store w) keyword with
       | None => BNone
       | Some ds => BDocuments ds
       end.
Proof. unfold run. rewrite app_search_document_eq. repeat split. Qed.

(** C6: save builds one document from the request, with the submitted
    content and [{"name": name}] as meta, passes exactly that document to
    the store in a single write, and answers 201 with [{"id": id}], [id]
    being the identifier of the document it wrote. *)
Theorem save_document_writes_one document w :
  let d := new_doc document in
  app (PostDocument document) w =
    ({| http_status := 201; http_body := BDict [("id", doc_id d)] |},
     {| document_store := write_documents [d] (document_store w);
        next_object := next_object w;
        calls := calls w ++ [CallWriteDocuments [d]] |})
  /\ doc_content d = content document
  /\ doc_meta d = [("name", name document)].
Proof. repeat split. Qed.

(** C4: ask creates a retriever, a reader and a pipeline, runs the
    pipeline on the question with [top_k] 10 for the retriever and 1 for
    the reader, so that the retriever is called on the question for 10
    candidates and the reader on the question and these candidates for 1
    answer, and answers 200 with the serialised answers in the reader's
    order; they are at most one when the reader returns no more answers
    than it is asked for. *)
Theorem ask_document_steps (Hreader : reader_honours_top_k) q w :
  let documents := retrieve (document_store w) (question q) (Some 10) in
  let answers :=
    predict "deepset/roberta-base-squad2" true (question q) documents (Some 1) in
  run (app (AskDocument q)) w =
    {| http_status := 200; http_body := BAnswers (List.map to_dict answers) |}
  /\ calls (exec (app (AskDocument q)) w) =
       (calls w ++ events_of_ask (next_object w) (document_store w) (question q))%list
  /\ node_param [("Retriever", [("top_k", 10)]); ("Reader", [("top_k", 1)])]
       "Retriever" "top_k" = Some 10
  /\ node_param [("Retriever", [("top_k", 10)]); ("Reader", [("top_k", 1)])]
       "Reader" "top_k" = Some 1
  /\ length (List.map to_dict answers) <= 1.
Proof.
  unfold run, exec. rewrite app_ask_document_eq. simpl fst. simpl snd.
  repeat split.
  rewrite length_map. apply Hreader.
Qed.

(** C8: no endpoint looks into the text it is given: every save answers
    201 and every ask answers 200, and an empty content and an empty
    question are handled like any other, the save writing a document with
    empty content and returning its identifier, the ask running the
    pipeline on the empty question. *)
Theorem empty_inputs_are_processed (submitted_name : option string) w :
  let document := {| name := submitted_name; content := "" |} in
  let d := new_doc document in
  (forall any : Document, http_status (run (app (PostDocument any)) w) = 201)
  /\ (forall any : Query, http_status (run (app (AskDocument any)) w) = 200)
  /\ app (PostDocument document) w =
       ({| http_status := 201; http_body := BDict [("id", doc_id d)] |},
        {| document_store := write_documents [d] (document_store w);
           next_object := next_object w;
           calls := calls w ++ [CallWriteDocuments [d]] |})
  /\ doc_content d = ""
  /\ app (AskDocument {| question := "" |}) w =
       ({| http_status := 200;
           http_body :=
             BAnswers (List.map to_dict
               (predict "deepset/roberta-base-squad2" true ""
                  (retrieve (document_store w) "" (Some 10)) (Some 1))) |},
        {| document_store := document_store w;
           next_object := next_object w + 3;
           calls := calls w ++ events_of_ask (next_object w) (document_store w) "" |}).
Proof.
  split; [reflexivity |].
  split; [intros any; unfold run; rewrite app_ask_document_eq; reflexivity |].
  split; [reflexivity |]. split; [reflexivity |].
  apply (app_ask_document_eq {| question := "" |} w).
Qed.

(** C9: whatever requests were served since startup, an ask creates its
    own retriever and reader: the record of startup holds no creation of
    either, the calls of the ask start with the creation of a retriever
    [o] and of a reader [o + 1], retrieval and reading are calls on these
    two objects, and no call recorded before the ask mentions [o] or
    [o + 1]. *)
Theorem ask_creates_its_nodes getenv (index : Store) (requests : list Request) q :
  let w0 := startup getenv index in
  let w := snd (serve requests w0) in
  let o := next_object w in
  List.filter is_node_creation (calls w0) = []
  /\ calls (exec (app (AskDocument q)) w) =
       (calls w ++ events_of_ask o (document_store w) (question q))%list
  /\ List.filter is_node_creation (events_of_ask o (document_store w) (question q)) =
       [NewBM25Retriever o; NewFARMReader (o + 1) "deepset/roberta-base-squad2" true]
  /\ Forall (fun e => ~ In o (event_objects e) /\ ~ In (o + 1) (event_objects e))
            (calls w).
Proof.
  intros w0 w o.
  assert (Hw : objects_numbered w).
  { apply serve_objects_numbered, startup_objects_numbered. }
  split; [reflexivity |].
  split; [apply (app_calls (AskDocument q) w) |].
  split; [reflexivity |].
  pose proof (numbered_not_mentioned w o Hw (le_n _)) as H0.
  assert (Hle : next_object w <= o + 1) by (unfold o; lia).
  pose proof (numbered_not_mentioned w (o + 1) Hw Hle) as H1.
  rewrite Forall_forall in H0, H1. apply Forall_forall.
  intros e He. split; [apply (H0 e He) | apply (H1 e He)].
Qed.

(** C7, as the code has it: no request other than a save changes the
    store, a save changes it by one write of one document, no request
    makes any other writing call, and, in a store whose write leaves the
    records under other identifiers alone, what is stored under an
    identifier is the same before and after every request, save for the
    identifier of the document a save writes. *)
Theorem stored_documents_frame (Hframe : write_frames) (r : Request) w (i : string)
  (Hother : forall document, r = PostDocument document -> i <> doc_id (new_doc document)) :
  document_store (exec (app r) w) =
    match r with
    | PostDocument document => write_documents [new_doc document] (document_store w)
    | _ => document_store w
    end
  /\ List.filter is_write (request_events r w) =
       match r with
       | PostDocument document => [CallWriteDocuments [new_doc document]]
       | _ => []
       end
  /\ get_document_by_id (document_store (exec (app r) w)) i =
       get_document_by_id (document_store w) i.
Proof.
  split; [apply app_document_store |].
  split; [destruct r; reflexivity |].
  rewrite app_document_store.
  destruct r; try reflexivity.
  apply Hframe. apply Hother. reflexivity.
Qed.

End Properties.

(** * The reference store: contracts, instances, counterexamples *)

Lemma memstore_write_then_get : @write_then_get _ _ _ MemStore.haystack.
Proof.
  intros d s. simpl. unfold MemStore.index_document. apply lookup_insert_eq.
Qed.

Lemma memstore_write_frames : @write_frames _ _ _ MemStore.haystack.
Proof.
  intros d s i Hi. simpl. unfold MemStore.index_document.
  apply lookup_insert_ne. congruence.
Qed.

Lemma memstore_reader_honours_top_k : @reader_honours_top_k _ _ _ MemStore.haystack.
Proof.
  intros model gpu q documents k. simpl. unfold MemStore.top. simpl.
  apply firstn_le_length.
Qed.

(** An ask over the store that holds [MemStore.paris]. *)
Lemma ask_document_steps_witness :
  @reader_honours_top_k _ _ _ MemStore.haystack
  /\ run (app (AskDocument {| question := "capital" |})) MemStore.with_paris =
       {| http_status := 200;
          http_body := BAnswers [[("answer", "capital");
                                  ("document_id", "The capital of France is Paris.")]] |}
  /\ calls (exec (app (AskDocument {| question := "capital" |})) MemStore.with_paris) =
       (calls MemStore.with_paris ++ events_of_ask 1 (document_store MemStore.with_paris) "capital")%list.
Proof.
  pose proof (ask_document_steps memstore_reader_honours_top_k
                {| question := "capital" |} MemStore.with_paris) as (Hrun & Hcalls & _).
  split; [exact memstore_reader_honours_top_k |].
  split; [exact Hrun | exact Hcalls].
Defined.

(** A save of another document leaves [MemStore.paris] as it was stored. *)
Lemma stored_documents_frame_witness :
  @write_frames _ _ _ MemStore.haystack
  /\ "The capital of France is Paris." <> doc_id (new_doc MemStore.unnamed)
  /\ get_document_by_id
       (document_store (exec (app (PostDocument MemStore.unnamed)) MemStore.with_paris))
       "The capital of France is Paris." =
     get_document_by_id (document_store MemStore.with_paris) "The capital of France is Paris.".
Proof.
  assert (Hother : forall document : Document,
             PostDocument MemStore.unnamed = PostDocument document ->
             "The capital of France is Paris." <> doc_id (new_doc document)).
  { intros document Heq. injection Heq as <-. simpl. discriminate. }
  split; [exact memstore_write_frames |].
  split; [simpl; discriminate |].
  exact (proj2 (proj2 (stored_documents_frame memstore_write_frames
                         (PostDocument MemStore.unnamed) MemStore.with_paris
                         "The capital of France is Paris." Hother))).
Defined.

(** C2, against the claim as stated: over an empty index the store reports
    the empty list, and list-all answers 200 with that list, not 404. *)
Lemma get_all_document_empty_is_200 :
  get_all_documents (document_store MemStore.fresh) = Some []
  /\ run (app GetAllDocuments) MemStore.fresh =
       {| http_status := 200; http_body := BDocuments [] |}
  /\ run (app GetAllDocuments) MemStore.fresh <>
       {| http_status := 404; http_body := BDict [("error", "Documents not found")] |}.
Proof.
  split; [reflexivity |]. split; [reflexivity |]. discriminate.
Qed.

(** C7, against the claim as stated: a save of a document with the content
    of a stored one takes its identifier, and the stored record, here its
    name, is replaced. *)
Lemma save_replaces_stored_document :
  ~ (forall (w : World MemStore.Store) (document : Document)
            (i : string) (d : HaystackDocument),
        get_document_by_id (document_store w) i = Some d ->
        get_document_by_id (document_store (exec (app (PostDocument document)) w)) i =
          Some d).
Proof.
  intros Hclaim.
  specialize (Hclaim MemStore.with_paris MemStore.paris_renamed
                "The capital of France is Paris." (new_doc MemStore.paris)).
  assert (Hstored : get_document_by_id (document_store MemStore.with_paris)
                      "The capital of France is Paris." = Some (new_doc MemStore.paris))
    by (vm_compute; reflexivity).
  specialize (Hclaim Hstored). vm_compute in Hclaim. discriminate Hclaim.
Qed.

(** * Serving sequences of requests *)

Section Serving.

Context {Store Answer AnswerDict : Type} `{!Haystack Store Answer AnswerDict}.

Implicit Types (w : World Store) (r : Request) (requests : list Request).

Lemma serve_cons r requests w :
  snd (serve (r :: requests) w) = snd (serve requests (exec (app r) w)).
Proof.
  simpl. unfold exec. destruct (app r w) as [resp w1]. simpl.
  destruct (serve requests w1); reflexivity.
Qed.

Lemma serve_snoc requests r w :
  snd (serve (requests ++ [r]) w) = exec (app r) (snd (serve requests w)).
Proof.
  revert w. induction requests as [| r0 rest IH]; intros w.
  - simpl. unfold exec. destruct (app r w); reflexivity.
  - change ((r0 :: rest) ++ [r])%list with (r0 :: (rest ++ [r]))%list.
    rewrite !serve_cons. apply IH.
Qed.

Lemma serve_store_is_its_saves_aux requests :
  forall w,
    document_store (snd (serve requests w)) =
      foldl (fun s document => write_documents [new_doc document] s)
            (document_store w) (saved_documents requests).
Proof.
  induction requests as [| r rest IH]; intros w.
  - reflexivity.
  - rewrite serve_cons, IH, app_document_store.
    destruct r; reflexivity.
Qed.

(** X1: the store after any sequence of requests is the store after its
    saves alone, performed in order, each as one write of one document;
    health checks, lookups, listings, searches and asks contribute
    nothing: what is left of a sequence when its saves are taken out
    leaves the store as it was. *)
Theorem serve_store_is_its_saves requests w :
  document_store (snd (serve requests w)) =
    foldl (fun s document => write_documents [new_doc document] s)
          (document_store w) (saved_documents requests)
  /\ saved_documents (List.filter (fun r => negb (is_save r)) requests) = []
  /\ document_store (snd (serve (List.filter (fun r => negb (is_save r)) requests) w)) =
       document_store w.
Proof.
  assert (Hnone : saved_documents (List.filter (fun r => negb (is_save r)) requests) = []).
  { induction requests as [| r rest IH]; [reflexivity |].
    destruct r; simpl; exact IH. }
  split; [apply serve_store_is_its_saves_aux |].
  split; [exact Hnone |].
  rewrite serve_store_is_its_saves_aux, Hnone. reflexivity.
Qed.

(** X2: the write calls recorded while a sequence of requests is served
    are, in order, one per save request, each with exactly the one document
    built from that request. *)
Theorem serve_writes_are_its_saves requests w :
  List.filter is_write (calls (snd (serve requests w))) =
    (List.filter is_write (calls w)
     ++ List.map (fun document => CallWriteDocuments [new_doc document])
                 (saved_documents requests))%list.
Proof.
  revert w. induction requests as [| r rest IH]; intros w.
  - simpl. symmetry. apply app_nil_r.
  - rewrite serve_cons, IH, app_calls, List.filter_app, <- app_assoc.
    f_equal. destruct r; reflexivity.
Qed.




(** X4: a 404 comes from the two tested lookups only: when a request is
    answered 404, it is a get-by-id for which the store returned [None] or
    a list-all for which the store returned [None]; health, save, search
    and ask never answer 404. *)
Theorem not_found_only_from_tested_lookups r w
  (Hstatus : http_status (run (app r) w) = 404) :
  (exists document_id,
      r = GetDocument document_id
      /\ get_document_by_id (document_store w) document_id = None)
  \/ (r = GetAllDocuments /\ get_all_documents (document_store w) = None).
Proof.
  unfold run in Hstatus. destruct r as [| i | document | | keyword | q].
  - rewrite app_health_eq in Hstatus. discriminate Hstatus.
  - left. exists i. split; [reflexivity |].
    rewrite app_get_document_eq in Hstatus.
    destruct (get_document_by_id (document_store w) i); [discriminate Hstatus | reflexivity].
  - rewrite app_save_document_eq in Hstatus. discriminate Hstatus.
  - right. split; [reflexivity |].
    rewrite app_get_all_document_eq in Hstatus.
    destruct (get_all_documents (document_store w)); [discriminate Hstatus | reflexivity].
  - rewrite app_search_document_eq in Hstatus. discriminate Hstatus.
  - rewrite app_ask_document_eq in Hstatus. discriminate Hstatus.
Qed.

(** ** Lookups across requests *)

Lemma app_lookup_frame (Hframe : write_frames) r w (i : string) :
  writes_id i r = false ->
  get_document_by_id (document_store (exec (app r) w)) i =
    get_document_by_id (document_store w) i.
Proof.
  intros Hr. rewrite app_document_store.
  destruct r; try reflexivity.
  apply Hframe. unfold writes_id in Hr. apply String.eqb_neq in Hr.
  intros Heq. apply Hr. symmetry. exact Heq.
Qed.

Lemma serve_lookup_frame (Hframe : write_frames) requests (i : string) :
  forall w, Forall (fun r => writes_id i r = false) requests ->
            get_document_by_id (document_store (snd (serve requests w))) i =
              get_document_by_id (document_store w) i.
Proof.
  induction requests as [| r rest IH]; intros w Hrs.
  - reflexivity.
  - inversion Hrs as [| r' rest' Hr Hrest]; subst.
    rewrite serve_cons, (IH _ Hrest). apply (app_lookup_frame Hframe r w i Hr).
Qed.

(** X5: an identifier that names no record stays unknown until a save
    writes a document with that identifier: in a store whose write leaves
    other identifiers alone, after any requests none of which saves under
    [i], get-by-id on [i] answers 404 with [{"error": "Document not
    found"}]. *)
Theorem unsaved_identifier_not_found (Hframe : write_frames) requests w (i : string)
  (Habsent : get_document_by_id (document_store w) i = None)
  (Hrequests : Forall (fun r => writes_id i r = false) requests) :
  run (app (GetDocument i)) (snd (serve requests w)) =
    {| http_status := 404; http_body := BDict [("error", "Document not found")] |}.
Proof.
  unfold run. rewrite app_get_document_eq. cbn [fst].
  rewrite (serve_lookup_frame Hframe requests i w Hrequests), Habsent. reflexivity.
Qed.

(** X6: a saved document is served until a later save takes its
    identifier: in a store where a document just written is found under its
    identifier and a write leaves other identifiers alone, after a save and
    then any requests, saves of documents with other identifiers included,
    get-by-id on the returned identifier answers 200 with the document as
    it was saved. *)
Theorem saved_document_outlives_other_saves
  (Hstore : write_then_get) (Hframe : write_frames) document requests w
  (Hrequests : Forall (fun r => writes_id (doc_id (new_doc document)) r = false) requests) :
  let saved := app (PostDocument document) w in
  fst saved = {| http_status := 201;
                 http_body := BDict [("id", doc_id (new_doc document))] |}
  /\ run (app (GetDocument (doc_id (new_doc document)))) (snd (serve requests (snd saved))) =
       {| http_status := 200; http_body := BDocument (new_doc document) |}.
Proof.
  rewrite app_save_document_eq. cbn [fst snd].
  split; [reflexivity |].
  unfold run. rewrite app_get_document_eq. cbn [fst].
  rewrite (serve_lookup_frame Hframe requests _ _ Hrequests). cbn [document_store].
  rewrite (Hstore (new_doc document) (document_store w)). reflexivity.
Qed.


(** ** Objects are created once *)

Lemma app_created r w :
  flat_map created_objects (calls (exec (app r) w)) =
    (flat_map created_objects (calls w)
     ++ (if is_ask r
         then [next_object w; next_object w + 1; next_object w + 2]
         else []))%list.
Proof.
  rewrite app_calls, flat_map_app. f_equal. destruct r; reflexivity.
Qed.

Lemma created_numbered w :
  objects_numbered w ->
  forall o, In o (flat_map created_objects (calls w)) -> o < next_object w.
Proof.
  intros Hw o Ho. apply in_flat_map in Ho as (e & He & Ho).
  unfold objects_numbered in Hw. rewrite Forall_forall in Hw.
  apply list_elem_of_In in He. specialize (Hw e He).
  rewrite Forall_forall in Hw. apply Hw. apply list_elem_of_In.
  destruct e; simpl in Ho |- *; tauto.
Qed.

Lemma app_created_once r w :
  objects_numbered w ->
  NoDup (flat_map created_objects (calls w)) ->
  NoDup (flat_map created_objects (calls (exec (app r) w))).
Proof.
  intros Hw Hnodup. rewrite app_created.
  destruct (is_ask r); [| rewrite app_nil_r; exact Hnodup].
  apply NoDup_app. split; [exact Hnodup |]. split.
  - intros o Ho Hnew. apply list_elem_of_In in Ho.
    pose proof (created_numbered w Hw o Ho) as Hlt.
    rewrite !elem_of_cons, elem_of_nil in Hnew. lia.
  - rewrite !NoDup_cons, !not_elem_of_cons, !elem_of_nil.
    repeat split; try lia; try tauto. apply NoDup_nil. exact I.
Qed.

Lemma app_used_created r w :
  Forall (fun e => Forall (fun o => In o (flat_map created_objects (calls w)))
                          (event_objects e)) (calls w) ->
  Forall (fun e => Forall (fun o => In o (flat_map created_objects
                                            (calls (exec (app r) w))))
                          (event_objects e)) (calls (exec (app r) w)).
Proof.
  intros Hw. rewrite app_created. rewrite app_calls. apply Forall_app. split.
  - eapply Forall_impl; [exact Hw |]. intros e He.
    eapply Forall_impl; [exact He |]. intros o Ho. simpl in Ho.
    apply in_or_app. left. exact Ho.
  - destruct r; simpl; repeat constructor; apply in_or_app; right; simpl;
      rewrite ?Nat.add_0_r; tauto.
Qed.

(** X7: in every record that serving reaches from startup, no object is
    created twice, and every object on which a call is made (a pipeline
    run, a retrieval, a reading) or from which a pipeline is built is one
    the record shows being created. *)
Theorem objects_created_once getenv (index : Store) requests :
  let w := snd (serve requests (startup getenv index)) in
  NoDup (flat_map created_objects (calls w))
  /\ Forall (fun e => Forall (fun o => In o (flat_map created_objects (calls w)))
                            (event_objects e)) (calls w).
Proof.
  induction requests as [| r rest IH] using rev_ind.
  - split.
    + simpl. apply NoDup_singleton.
    + simpl. repeat constructor.
  - cbv zeta in IH |- *. rewrite serve_snoc. destruct IH as [Hnodup Hused]. split.
    + apply app_created_once; [| exact Hnodup].
      apply serve_objects_numbered, startup_objects_numbered.
    + apply app_used_created. exact Hused.
Qed.

(** ** Responses depend on the saves alone *)

Lemma app_response_of_store r w1 w2 :
  document_store w1 = document_store w2 -> run (app r) w1 = run (app r) w2.
Proof.
  intros Hstore. unfold run. destruct r.
  - rewrite !app_health_eq. reflexivity.
  - rewrite !app_get_document_eq. cbn [fst]. rewrite Hstore. reflexivity.
  - rewrite !app_save_document_eq. reflexivity.
  - rewrite !app_get_all_document_eq. cbn [fst]. rewrite Hstore. reflexivity.
  - rewrite !app_search_document_eq. cbn [fst]. rewrite Hstore. reflexivity.
  - rewrite !app_ask_document_eq. cbn [fst]. rewrite Hstore. reflexivity.
Qed.

(** X8: the endpoints keep no state but the store: whatever was served
    before, the response to a request is determined by the documents saved
    so far, in their order.  Two histories from the same world with the
    same saves are answered alike from then on, however many health
    checks, lookups, listings, searches and asks either of them holds. *)
Theorem responses_depend_on_saves_only requests1 requests2 r w
  (Hsaves : saved_documents requests1 = saved_documents requests2) :
  run (app r) (snd (serve requests1 w)) = run (app r) (snd (serve requests2 w)).
Proof.
  apply app_response_of_store.
  rewrite !serve_store_is_its_saves_aux, Hsaves. reflexivity.
Qed.

End Serving.

(** * Instances on the reference store *)

(** A lookup of an identifier the empty index does not hold. *)
Lemma not_found_only_from_tested_lookups_witness :
  http_status (run (app (GetDocument "unknown")) MemStore.fresh) = 404
  /\ ((exists document_id,
          GetDocument "unknown" = GetDocument document_id
          /\ get_document_by_id (document_store MemStore.fresh) document_id = None)
      \/ (GetDocument "unknown" = GetAllDocuments
          /\ get_all_documents (document_store MemStore.fresh) = None)).
Proof.
  split; [reflexivity |].
  apply (not_found_only_from_tested_lookups (GetDocument "unknown") MemStore.fresh).
  reflexivity.
Defined.

(** Two saves, a listing and an ask, none under the identifier looked up. *)
Lemma unsaved_identifier_not_found_witness :
  @write_frames _ _ _ MemStore.haystack
  /\ get_document_by_id (document_store MemStore.fresh) "unknown" = None
  /\ run (app (GetDocument "unknown"))
       (snd (serve [PostDocument MemStore.paris; GetAllDocuments;
                    AskDocument {| question := "capital" |};
                    PostDocument MemStore.unnamed] MemStore.fresh)) =
     {| http_status := 404; http_body := BDict [("error", "Document not found")] |}.
Proof.
  split; [exact memstore_write_frames |].
  split; [reflexivity |].
  apply (unsaved_identifier_not_found memstore_write_frames
           [PostDocument MemStore.paris; GetAllDocuments;
            AskDocument {| question := "capital" |};
            PostDocument MemStore.unnamed] MemStore.fresh "unknown").
  - reflexivity.
  - repeat constructor.
Defined.

(** [MemStore.paris] saved, then another save, a search and a health check. *)
Lemma saved_document_outlives_other_saves_witness :
  @write_then_get _ _ _ MemStore.haystack
  /\ @write_frames _ _ _ MemStore.haystack
  /\ run (app (GetDocument "The capital of France is Paris."))
       (snd (serve [PostDocument MemStore.unnamed; SearchDocuments "Lyon"; GetHealth]
               (snd (app (PostDocument MemStore.paris) MemStore.fresh)))) =
     {| http_status := 200; http_body := BDocument (new_doc MemStore.paris) |}.
Proof.
  split; [exact memstore_write_then_get |].
  split; [exact memstore_write_frames |].
  apply (saved_document_outlives_other_saves memstore_write_then_get memstore_write_frames
           MemStore.paris [PostDocument MemStore.unnamed; SearchDocuments "Lyon"; GetHealth]
           MemStore.fresh).
  repeat constructor.
Defined.

(** Two histories with the one save of [MemStore.paris], then a search. *)
Lemma responses_depend_on_saves_only_witness :
  saved_documents [PostDocument MemStore.paris; GetHealth;
                   AskDocument {| question := "capital" |}] =
    saved_documents [GetAllDocuments; PostDocument MemStore.paris]
  /\ run (app (SearchDocuments "Paris"))
       (snd (serve [PostDocument MemStore.paris; GetHealth;
                    AskDocument {| question := "capital" |}] MemStore.fresh)) =
     run (app (SearchDocuments "Paris"))
       (snd (serve [GetAllDocuments; PostDocument MemStore.paris] MemStore.fresh)).
Proof.
  split; [reflexivity |].
  apply (responses_depend_on_saves_only
           [PostDocument MemStore.paris; GetHealth; AskDocument {| question := "capital" |}]
           [GetAllDocuments; PostDocument MemStore.paris]
           (SearchDocuments "Paris") MemStore.fresh).
  reflexivity.
Defined.


